(** * dividend-shorter: the dividend screener of [main.py]

    A shallow embedding of the screener's pipeline and the properties its
    specification states about it.

    - Python exceptions are values of [exn]; a call that may raise returns
      a [result].
    - [datetime] values are proleptic Gregorian ordinals with a time of
      day, as [datetime.toordinal] numbers them, bounded by [date.max].
    - pandas tables are row lists of string-keyed cells; numpy [float64]
      values are IEEE binary64 numbers ([spec_float] at precision 53).
    - the network (calendar endpoint, price history provider) and the
      parts of pandas whose result the source leaves open (order among
      sort ties, full-window rolling mean) are section variables. *)

From Stdlib Require Import ZArith Lia List Bool Ascii String SpecFloat.
From Stdlib Require Import Sorting.Sorted Sorting.Permutation.
From stdpp Require Import base option list strings gmap.

#[local] Open Scope Z_scope.

(** ** Exceptions and results *)

Inductive exn : Type :=
| OverflowError   (* date value out of range; int(inf) *)
| ValueError      (* pd.concat([]); int(nan) *)
| KeyError        (* column lookup by name *)
| AttributeError  (* row.symbol on a row without that column *)
| TypeError       (* an operand of the wrong cell type *)
| IndexError.     (* iloc past the ends of a series *)

Inductive result (A : Type) : Type :=
| Ok (a : A)
| Raise (e : exn).
Arguments Ok {A} a.
Arguments Raise {A} e.

#[global] Instance result_ret : MRet result := fun A a => Ok a.

#[global] Instance result_bind : MBind result := fun A B k r =>
  match r with
  | Ok a => k a
  | Raise e => Raise e
  end.

(** ** Dates *)

Module Calendar.

(** [date.max.toordinal()], the ordinal of 9999-12-31. *)
Definition MAXORDINAL : Z := 3652059.

(** A [datetime]: the day as [toordinal()] gives it (0001-01-01 is day 1)
    and the time within the day in microseconds.  A [date] is a
    [datetime] at time 0. *)
Record datetime : Type := mkdt { ordinal : Z; time_us : Z }.

Definition valid (d : datetime) : Prop :=
  1 <= ordinal d <= MAXORDINAL /\ 0 <= time_us d < 86400000000.

(** [weekday()] of the day with ordinal [o]: Monday is 0, Sunday is 6. *)
Definition weekday_of (o : Z) : Z := (o + 6) mod 7.

Definition weekday (d : datetime) : Z := weekday_of (ordinal d).

(** [d + timedelta(days=1)]; Python raises OverflowError past [date.max]. *)
Definition add_one_day (d : datetime) : result datetime :=
  if ordinal d + 1 <=? MAXORDINAL
  then Ok (mkdt (ordinal d + 1) (time_us d))
  else Raise OverflowError.

(** [a <= b] on datetimes. *)
Definition dt_leb (a b : datetime) : bool :=
  (ordinal a <? ordinal b) || ((ordinal a =? ordinal b) && (time_us a <=? time_us b)).

(** The [while] loop of [add_business_days] (lines 24-27), one iteration
    per unit of [fuel]; [None] is a loop still running when the fuel is
    spent. *)
Fixpoint add_business_days_loop (fuel : nat) (current_date : datetime)
    (days_added business_days : Z) : option (result datetime) :=
  if days_added <? business_days then
    match fuel with
    | O => None
    | S fuel' =>
        match add_one_day current_date with
        | Raise e => Some (Raise e)
        | Ok next =>
            add_business_days_loop fuel' next
              (if weekday next <? 5 then days_added + 1 else days_added)
              business_days
        end
    end
  else Some (Ok current_date).

(** [add_business_days] (lines 10-29).  Every iteration advances the date
    by one day, so the loop has returned or raised before the calendar
    ends: one iteration per remaining day of the calendar, and one more,
    is fuel enough ([add_business_days_returns]). *)
Definition add_business_days (start_date : datetime) (business_days : Z)
    : option (result datetime) :=
  add_business_days_loop (S (Z.to_nat (MAXORDINAL - ordinal start_date)))
    start_date 0 business_days.

(** The number of weekdays among the [len] days after day [o]:
    [o+1, ..., o+len]. *)
Fixpoint count_weekdays (o : Z) (len : nat) : Z :=
  match len with
  | O => 0
  | S len' =>
      (if weekday_of (o + 1) <? 5 then 1 else 0) + count_weekdays (o + 1) len'
  end.

(** Modelled after the specification's words: day [e] is the [n]-th
    weekday strictly after day [d], counting only Monday to Friday; the
    0-th is [d] itself. *)
Definition nth_weekday_after (d n e : Z) : Prop :=
  (n = 0 /\ e = d) \/
  (0 < n /\ d < e /\ weekday_of e < 5 /\ count_weekdays d (Z.to_nat (e - d)) = n).

End Calendar.

(** ** numpy's float64 *)

Module F64.

Abbreviation float64 := spec_float.

Definition prec : Z := 53.
Definition emax : Z := 1024.

Definition nan : float64 := S754_nan.
Definition zero : float64 := S754_zero false.

(** An integer converted to float64, rounded to nearest even. *)
Definition of_Z (z : Z) : float64 := binary_normalize prec emax z 0 false.

Definition mul (x y : float64) : float64 := SFmul prec emax x y.
Definition div (x y : float64) : float64 := SFdiv prec emax x y.

(** [x > y]: false as soon as one side is NaN. *)
Definition gtb (x y : float64) : bool := SFltb y x.
Definition eqb (x y : float64) : bool := SFeqb x y.

Definition is_nan (x : float64) : bool :=
  match x with S754_nan => true | _ => false end.

Definition is_finite (x : float64) : bool :=
  match x with S754_zero _ | S754_finite _ _ _ => true | _ => false end.

(** The integer nearest to [m * 2^e], ties to the even one. *)
Definition round_half_even (m e : Z) : Z :=
  if 0 <=? e then m * 2 ^ e
  else
    let d := 2 ^ (- e) in
    let q := m / d in
    let r := m mod d in
    if 2 * r <? d then q
    else if d <? 2 * r then q + 1
    else if Z.even q then q else q + 1.

(** [int(np.rint(x))] for a zero or finite [x]. *)
Definition rint_Z (x : float64) : option Z :=
  match x with
  | S754_zero _ => Some 0
  | S754_finite s m e =>
      let k := round_half_even (Zpos m) e in
      Some (if s then - k else k)
  | _ => None
  end.

(** [np.rint]: NaN and the infinities are returned as they are, and the
    sign of the argument is kept on a zero result. *)
Definition rint (x : float64) : float64 :=
  match x with
  | S754_finite s m e =>
      if 0 <=? e then x
      else
        let k := round_half_even (Zpos m) e in
        if k =? 0 then S754_zero s else of_Z (if s then - k else k)
  | _ => x
  end.

(** [round(x)] on a numpy float64: [np.rint], then conversion to a Python
    [int], which raises on NaN and on the infinities. *)
Definition round (x : float64) : result Z :=
  match x with
  | S754_nan => Raise ValueError
  | S754_infinity _ => Raise OverflowError
  | _ => match rint_Z x with Some k => Ok k | None => Raise ValueError end
  end.

(** [round(x, 2)] on a numpy float64, which is [np.round(x, 2)]: scale by
    10**2, [np.rint], scale back. *)
Definition round2 (x : float64) : float64 :=
  div (rint (mul x (of_Z 100))) (of_Z 100).

End F64.

Import F64.

(** ** pandas tables *)

Inductive cell : Type :=
| VFloat (x : float64)      (* float64 *)
| VBool (b : bool)          (* bool *)
| VStr (s : string)         (* object column holding str *)
| VDate (t : option Z).     (* datetime64[ns]; [None] is NaT *)

Abbreviation Row := (gmap string cell).

(** A DataFrame whose index is the RangeIndex 0 .. n-1, as
    [pd.concat(..., ignore_index=True)] (line 94) builds it: the label of
    a row is its position in [df_rows]. *)
Record DataFrame : Type := mkdf {
  df_columns : list string;
  df_rows : list Row
}.

(** A DataFrame that keeps the labels of the rows it was selected from:
    the result of boolean indexing and of [sort_values]. *)
Record Selection : Type := mksel {
  sel_columns : list string;
  sel_rows : list (nat * Row)
}.

(** [pd.DataFrame()]. *)
Definition empty_frame : DataFrame := mkdf [] [].

(** Cell access with the exception Python raises there. *)
Definition get_float (r : Row) (c : string) : result float64 :=
  match r !! c with
  | Some (VFloat x) => Ok x
  | Some _ => Raise TypeError
  | None => Raise KeyError
  end.

(** [row.symbol.replace]: a missing column and a cell that is no [str]
    both raise AttributeError. *)
Definition attr_str (r : Row) (c : string) : result string :=
  match r !! c with
  | Some (VStr s) => Ok s
  | _ => Raise AttributeError
  end.

(** [row.dividend_Rate] as the numerator of a float division. *)
Definition attr_float (r : Row) (c : string) : result float64 :=
  match r !! c with
  | Some (VFloat x) => Ok x
  | Some _ => Raise TypeError
  | None => Raise AttributeError
  end.

(** [s.replace(".", "-")]. *)
Fixpoint replace_dot (s : string) : string :=
  match s with
  | EmptyString => EmptyString
  | String c s' =>
      String (if Ascii.eqb c "."%char then "-"%char else c) (replace_dot s')
  end.

(** Columns of [cs] appended to [acc], those already there left in place. *)
Definition add_columns (acc cs : list string) : list string :=
  acc ++ filter (fun c => c ∉ acc) (remove_dups cs).

(** [pd.concat(dfs, ignore_index=True)]: raises "No objects to
    concatenate" on an empty list; otherwise the rows in order, under the
    union of the columns, a cell missing from a row filled with NaN. *)
Definition pd_concat (dfs : list DataFrame) : result DataFrame :=
  match dfs with
  | [] => Raise ValueError
  | _ =>
      let cols := foldl add_columns [] (df_columns <$> dfs) in
      let blank : Row := list_to_map ((fun c => (c, VFloat nan)) <$> cols) in
      Ok (mkdf cols ((fun r : Row => r ∪ blank) <$> concat (df_rows <$> dfs)))
  end.

(** ** The date-range aggregator *)

Import Calendar.

Section Aggregator.

(** [get_dividend_day] (lines 32-73): one request to the calendar
    endpoint; what it returns is the network's choice. *)
Variable get_dividend_day : datetime -> DataFrame.

(** The [while] loop of [get_dividend_days] (lines 89-92).  [fetched]
    records the dates [get_dividend_day] was called with, in call order. *)
Fixpoint get_dividend_days_loop (fuel : nat) (start_date end_date : datetime)
    (dfs : list DataFrame) (fetched : list datetime)
    : option (list datetime * result (list DataFrame)) :=
  if dt_leb start_date end_date then
    match fuel with
    | O => None
    | S fuel' =>
        let '(dfs', fetched') :=
          if weekday start_date <? 5
          then (dfs ++ [get_dividend_day start_date], fetched ++ [start_date])
          else (dfs, fetched) in
        match add_one_day start_date with
        | Raise e => Some (fetched', Raise e)
        | Ok next => get_dividend_days_loop fuel' next end_date dfs' fetched'
        end
    end
  else Some (fetched, Ok dfs).

(** [get_dividend_days] (lines 76-94): the calls made to
    [get_dividend_day] and the outcome.  The loop visits each day from
    [start_date] to [end_date] once, so the number of days between them
    is fuel enough. *)
Definition get_dividend_days (start_date end_date : datetime)
    : option (list datetime * result DataFrame) :=
  match get_dividend_days_loop
          (Z.to_nat (ordinal end_date - ordinal start_date + 1))
          start_date end_date [] [] with
  | None => None
  | Some (fetched, Raise e) => Some (fetched, Raise e)
  | Some (fetched, Ok dfs) => Some (fetched, pd_concat dfs)
  end.

End Aggregator.

(** ** Enrichment and filter *)

(** One row of [ticker.history()]. *)
Record Observation : Type := mkobs { Close : float64; Volume : Z }.

(** [series.iloc[-k]] for [k >= 1]: the element at index [len - k]. *)
Definition iloc_neg {A : Type} (l : list A) (k : nat) : result A :=
  if (k <=? length l)%nat
  then match l !! (length l - k)%nat with
       | Some x => Ok x
       | None => Raise IndexError
       end
  else Raise IndexError.

(** Code that mutates the caller's DataFrame and may raise: the table is
    threaded through, and is handed back also when an exception leaves
    the call. *)
Definition M (A : Type) : Type := DataFrame -> DataFrame * result A.

#[global] Instance M_ret : MRet M := fun A a df => (df, Ok a).

#[global] Instance M_bind : MBind M := fun A B k m df =>
  match m df with
  | (df', Ok a) => k a df'
  | (df', Raise e) => (df', Raise e)
  end.

Definition lift {A : Type} (r : result A) : M A := fun df => (df, r).

Definition set_cell (c : string) (v : cell) (r : Row) : Row := <[c := v]> r.

(** The column list after an assignment to column [c]. *)
Definition with_column (c : string) (cols : list string) : list string :=
  if decide (c ∈ cols) then cols else cols ++ [c].

(** [df[c] = v] with a scalar [v]. *)
Definition set_column (c : string) (v : cell) : M unit := fun df =>
  (mkdf (with_column c (df_columns df)) (set_cell c v <$> df_rows df), Ok tt).

(** [df[c] = values], one value per row. *)
Definition assign_column (c : string) (values : list cell) : M unit := fun df =>
  (mkdf (with_column c (df_columns df))
        (zip_with (set_cell c) values (df_rows df)), Ok tt).

(** [df.at[index, c] = v]. *)
Definition at_set (index : nat) (c : string) (v : cell) : M unit := fun df =>
  (mkdf (df_columns df) (alter (set_cell c v) index (df_rows df)), Ok tt).

(** [df[a] > df[b]], element by element. *)
Definition column_gt (a b : string) : M (list cell) := fun df =>
  (df, mapM (fun r : Row =>
               x ← get_float r a; y ← get_float r b; mret (VBool (gtb x y)))
            (df_rows df)).

(** [df.iterrows()]: the labels and the rows as they are when the loop
    starts. *)
Definition iterrows : M (list (nat * Row)) := fun df =>
  (df, Ok (zip (seq 0 (length (df_rows df))) (df_rows df))).

(** [t[t[c] > threshold]] on a selection. *)
Definition select_gt (c : string) (threshold : float64) (t : Selection)
    : result Selection :=
  mask ← mapM (fun lr : nat * Row => x ← get_float lr.2 c; mret (gtb x threshold))
              (sel_rows t);
  mret (mksel (sel_columns t)
              ((fun p => p.2) <$> filter (fun p => p.1 = true) (zip mask (sel_rows t)))).

(** The caller's table seen as a selection of all of its rows. *)
Definition all_rows (df : DataFrame) : Selection :=
  mksel (df_columns df) (zip (seq 0 (length (df_rows df))) (df_rows df)).

(** The sort key of a row: its cell in the datetime64 column [by]. *)
Definition sort_key (by_ : string) (lr : nat * Row) : result (option Z) :=
  match lr.2 !! by_ with
  | Some (VDate t) => Ok t
  | Some _ => Raise TypeError
  | None => Raise KeyError
  end.

Section Enrichment.

(** [yf.Ticker(symbol).history()]: the provider's answer for a symbol. *)
Variable history : string -> list Observation.

(** The mean pandas computes over a full window of 50 closes. *)
Variable window_mean : list float64 -> float64.

(** numpy's [argsort] under pandas' default [kind="quicksort"], applied to
    the keyed rows: it sorts by key and promises no order among equal
    keys. *)
Variable argsort : list (Z * (nat * Row)) -> list (Z * (nat * Row)).

(** [closes.rolling(50).mean().iloc[-1]]: with the default
    [min_periods] of 50 a shorter series gives NaN. *)
Definition rolling_50_mean_last (closes : list float64) : float64 :=
  if (length closes <? 50)%nat then nan
  else window_mean (drop (length closes - 50) closes).

(** The body of the [for] loop (lines 172-187) for one row. *)
Definition enrich_row (index : nat) (row : Row) : M unit :=
  symbol ← lift (attr_str row "symbol");
  let hist := history (replace_dot symbol) in
  if (length hist =? 0)%nat || (length hist <? 6)%nat then mret tt
  else
    last_close ← lift (iloc_neg (Close <$> hist) 1);
    at_set index "Close" (VFloat last_close);;
    last_volume ← lift (iloc_neg (Volume <$> hist) 1);
    at_set index "Volume" (VFloat (of_Z last_volume));;
    at_set index "SMA_50" (VFloat (rolling_50_mean_last (Close <$> hist)));;
    rate ← lift (attr_float row "dividend_Rate");
    at_set index "dividend_percentage"
      (VFloat (round2 (mul (div rate last_close) (of_Z 100))));;
    dollars ← lift (round (mul last_close (of_Z last_volume)));
    at_set index "last_close_volume" (VFloat (of_Z dollars));;
    close_5 ← lift (iloc_neg (Close <$> hist) 5);
    at_set index "close_5_days_ago" (VFloat close_5).

(** The [for] loop (line 171) over the rows [iterrows] yielded. *)
Fixpoint enrich_rows (todo : list (nat * Row)) : M unit :=
  match todo with
  | [] => mret tt
  | (index, row) :: rest => enrich_row index row;; enrich_rows rest
  end.

(** [t.sort_values(by=...)], ascending with [na_position="last"]: the
    rows with a date are sorted by [argsort], the NaT rows follow in the
    order they had. *)
Definition sort_values (by_ : string) (t : Selection) : result Selection :=
  if decide (by_ ∈ sel_columns t) then
    keys ← mapM (sort_key by_) (sel_rows t);
    let keyed := zip keys (sel_rows t) in
    let dated := omap (fun p : option Z * (nat * Row) =>
                         match p.1 with Some k => Some (k, p.2) | None => None end)
                      keyed in
    let nat_rows := filter (fun p : option Z * (nat * Row) => p.1 = None) keyed in
    mret (mksel (sel_columns t)
                (((fun p => p.2) <$> argsort dated) ++ ((fun p => p.2) <$> nat_rows)))
  else Raise KeyError.

(** Lines 192-195: the two filters and the sort.  They build new tables
    and leave the caller's as it is. *)
Definition filter_and_sort : M Selection := fun df =>
  (df, t ← select_gt "last_close_volume" (of_Z 1000000) (all_rows df);
       t ← select_gt "dividend_percentage" (of_Z 3) t;
       sort_values "dividend_Ex_Date" t).

(** [update_stock_data] (lines 154-195): the caller's table as the call
    leaves it, and the table returned or the exception raised. *)
Definition update_stock_data : M Selection :=
  set_column "Close" (VFloat zero);;
  set_column "Volume" (VFloat zero);;
  set_column "dividend_percentage" (VFloat zero);;
  set_column "last_close_volume" (VFloat zero);;
  set_column "close_5_days_ago" (VFloat zero);;
  set_column "SMA_50" (VFloat zero);;
  todo ← iterrows;
  enrich_rows todo;;
  roc ← column_gt "Close" "close_5_days_ago";
  assign_column "roc_5_pos" roc;;
  above ← column_gt "Close" "SMA_50";
  assign_column "above_SMA_50" above;;
  filter_and_sort.

End Enrichment.

(** * Properties *)

(** ** The business-day calculator *)

Section CalendarFacts.

Lemma add_one_day_ok (d : datetime) :
  ordinal d + 1 <= MAXORDINAL ->
  add_one_day d = Ok (mkdt (ordinal d + 1) (time_us d)).
Proof.
  intros H. unfold add_one_day.
  destruct (Z.leb_spec (ordinal d + 1) MAXORDINAL); [reflexivity | lia].
Qed.

Lemma add_one_day_overflow (d : datetime) :
  MAXORDINAL <= ordinal d -> add_one_day d = Raise OverflowError.
Proof.
  intros H. unfold add_one_day.
  destruct (Z.leb_spec (ordinal d + 1) MAXORDINAL); [lia | reflexivity].
Qed.

Lemma count_weekdays_nonneg (o : Z) (len : nat) : 0 <= count_weekdays o len.
Proof.
  revert o. induction len as [|len IH]; intros o; simpl; [lia|].
  specialize (IH (o + 1)). destruct (weekday_of (o + 1) <? 5); lia.
Qed.

Lemma count_weekdays_app (o : Z) (a b : nat) :
  count_weekdays o (a + b) =
  count_weekdays o a + count_weekdays (o + Z.of_nat a) b.
Proof.
  revert o. induction a as [|a IH]; intros o.
  - cbn [Nat.add count_weekdays Z.of_nat]. rewrite Z.add_0_r. reflexivity.
  - cbn [Nat.add count_weekdays]. rewrite IH.
    replace (o + 1 + Z.of_nat a) with (o + Z.of_nat (S a)) by lia. lia.
Qed.

Lemma count_weekdays_snoc (o : Z) (len : nat) :
  count_weekdays o (S len) =
  count_weekdays o len
  + (if weekday_of (o + Z.of_nat (S len)) <? 5 then 1 else 0).
Proof.
  replace (S len) with (len + 1)%nat at 1 by lia.
  rewrite count_weekdays_app. cbn [count_weekdays].
  replace (o + Z.of_nat len + 1) with (o + Z.of_nat (S len)) by lia. lia.
Qed.

Lemma count_weekdays_mono (o : Z) (a b : nat) :
  (a <= b)%nat -> count_weekdays o a <= count_weekdays o b.
Proof.
  intros H. replace b with (a + (b - a))%nat by lia.
  rewrite count_weekdays_app.
  pose proof (count_weekdays_nonneg (o + Z.of_nat a) (b - a)). lia.
Qed.

(** The loop stops on the weekday that completes the count. *)
Lemma add_business_days_loop_reaches (k : nat) :
  forall (fuel : nat) (cur : datetime) (added n : Z),
    (k < fuel)%nat ->
    ordinal cur + Z.of_nat (S k) <= MAXORDINAL ->
    weekday_of (ordinal cur + Z.of_nat (S k)) < 5 ->
    added + count_weekdays (ordinal cur) (S k) = n ->
    add_business_days_loop fuel cur added n
    = Some (Ok (mkdt (ordinal cur + Z.of_nat (S k)) (time_us cur))).
Proof.
  induction k as [|k IH]; intros fuel cur added n Hfuel Hmax Hwd Hcount.
  - destruct fuel as [|fuel]; [lia|].
    cbn [count_weekdays] in Hcount.
    replace (ordinal cur + Z.of_nat 1) with (ordinal cur + 1) in * by lia.
    destruct (Z.ltb_spec (weekday_of (ordinal cur + 1)) 5) as [_|]; [|lia].
    cbn [add_business_days_loop].
    destruct (Z.ltb_spec added n); [|lia].
    rewrite add_one_day_ok by lia. unfold weekday. cbn [ordinal time_us].
    destruct (Z.ltb_spec (weekday_of (ordinal cur + 1)) 5); [|lia].
    destruct fuel; cbn [add_business_days_loop];
      (destruct (Z.ltb_spec (added + 1) n); [lia | reflexivity]).
  - destruct fuel as [|fuel]; [lia|].
    assert (Hlast : 1 <= count_weekdays (ordinal cur + 1) (S k)).
    { rewrite count_weekdays_snoc.
      replace (ordinal cur + 1 + Z.of_nat (S k))
        with (ordinal cur + Z.of_nat (S (S k))) by lia.
      destruct (Z.ltb_spec (weekday_of (ordinal cur + Z.of_nat (S (S k)))) 5);
        [|lia].
      pose proof (count_weekdays_nonneg (ordinal cur + 1) k). lia. }
    change (count_weekdays (ordinal cur) (S (S k)))
      with ((if weekday_of (ordinal cur + 1) <? 5 then 1 else 0)
            + count_weekdays (ordinal cur + 1) (S k)) in Hcount.
    cbn [add_business_days_loop].
    destruct (Z.ltb_spec added n);
      [|destruct (weekday_of (ordinal cur + 1) <? 5); lia].
    rewrite add_one_day_ok by lia. unfold weekday. cbn [ordinal time_us].
    rewrite (IH fuel (mkdt (ordinal cur + 1) (time_us cur))); cbn [ordinal time_us].
    + do 3 f_equal. lia.
    + lia.
    + lia.
    + replace (ordinal cur + 1 + Z.of_nat (S k))
        with (ordinal cur + Z.of_nat (S (S k))) by lia. exact Hwd.
    + destruct (weekday_of (ordinal cur + 1) <? 5); lia.
Qed.

(** The loop runs into [date.max] when the count cannot be completed
    before it. *)
Lemma add_business_days_loop_overflows (k : nat) :
  forall (fuel : nat) (cur : datetime) (added n : Z),
    (k < fuel)%nat ->
    ordinal cur + Z.of_nat k = MAXORDINAL ->
    added + count_weekdays (ordinal cur) k < n ->
    add_business_days_loop fuel cur added n = Some (Raise OverflowError).
Proof.
  induction k as [|k IH]; intros fuel cur added n Hfuel Hmax Hcount;
    (destruct fuel as [|fuel]; [lia|]); cbn [add_business_days_loop].
  - cbn [count_weekdays] in Hcount.
    destruct (Z.ltb_spec added n); [|lia].
    rewrite add_one_day_overflow by lia. reflexivity.
  - cbn [count_weekdays] in Hcount.
    pose proof (count_weekdays_nonneg (ordinal cur + 1) k).
    destruct (Z.ltb_spec added n);
      [|destruct (weekday_of (ordinal cur + 1) <? 5); lia].
    rewrite add_one_day_ok by lia. unfold weekday. cbn [ordinal time_us].
    apply IH; cbn [ordinal time_us]; [lia | lia |].
    destruct (weekday_of (ordinal cur + 1) <? 5); lia.
Qed.

(** The loop never outlives its fuel. *)
Lemma add_business_days_loop_fuel (fuel : nat) :
  forall (cur : datetime) (added n : Z),
    (Z.to_nat (MAXORDINAL - ordinal cur) < fuel)%nat ->
    exists r, add_business_days_loop fuel cur added n = Some r.
Proof.
  induction fuel as [|fuel IH]; intros cur added n Hfuel; [lia|].
  cbn [add_business_days_loop].
  destruct (added <? n); [|eauto].
  unfold add_one_day.
  destruct (Z.leb_spec (ordinal cur + 1) MAXORDINAL); [|eauto].
  apply IH. cbn [ordinal]. lia.
Qed.

End CalendarFacts.

Section BusinessDays.

(** After any day, the next weekday is one, two or three days away. *)
Lemma next_weekday (o : Z) :
  exists k : nat,
    weekday_of (o + Z.of_nat (S k)) < 5 /\ count_weekdays o (S k) = 1.
Proof.
  assert (Hw : 0 <= weekday_of o < 7)
    by (unfold weekday_of; Z.div_mod_to_equations; lia).
  assert (Hstep : forall j, weekday_of (o + j) = (weekday_of o + j) mod 7)
    by (intros j; unfold weekday_of; Z.div_mod_to_equations; lia).
  destruct (Z.eq_dec (weekday_of o) 4) as [Hfri|Hnfri];
    [|destruct (Z.eq_dec (weekday_of o) 5) as [Hsat|Hnsat]].
  - exists 2%nat. cbn [count_weekdays].
    replace (o + 1 + 1) with (o + 2) by lia.
    replace (o + 2 + 1) with (o + 3) by lia.
    replace (o + Z.of_nat 3) with (o + 3) by lia.
    rewrite !Hstep, Hfri. split; [reflexivity | reflexivity].
  - exists 1%nat. cbn [count_weekdays].
    replace (o + 1 + 1) with (o + 2) by lia.
    replace (o + Z.of_nat 2) with (o + 2) by lia.
    rewrite !Hstep, Hsat. split; [reflexivity | reflexivity].
  - exists 0%nat. cbn [count_weekdays].
    replace (o + Z.of_nat 1) with (o + 1) by lia.
    assert (Hnext : weekday_of (o + 1) < 5)
      by (rewrite Hstep; Z.div_mod_to_equations; lia).
    split; [exact Hnext|].
    destruct (Z.ltb_spec (weekday_of (o + 1)) 5); lia.
Qed.

(** Every day has an [n]-th weekday after it. *)
Lemma nth_weekday_after_exists (d n : Z) :
  0 <= n -> exists e, nth_weekday_after d n e.
Proof.
  intros Hn. pattern n. apply natlike_ind; [| |exact Hn].
  - exists d. left. split; reflexivity.
  - intros m Hm [e He].
    assert (Hprev : d <= e /\ count_weekdays d (Z.to_nat (e - d)) = m).
    { destruct He as [[-> ->]|(_ & Hlt & _ & Hc)].
      - rewrite Z.sub_diag. split; [lia | reflexivity].
      - split; [lia | exact Hc]. }
    destruct Hprev as [Hle Hc].
    destruct (next_weekday e) as (k & Hwd & Hone).
    exists (e + Z.of_nat (S k)). right.
    split; [lia|]. split; [lia|]. split; [exact Hwd|].
    replace (Z.to_nat (e + Z.of_nat (S k) - d))
      with (Z.to_nat (e - d) + S k)%nat by lia.
    rewrite count_weekdays_app, Hc.
    replace (d + Z.of_nat (Z.to_nat (e - d))) with e by lia.
    rewrite Hone. reflexivity.
Qed.

Lemma add_business_days_zero (d : datetime) (n : Z) :
  n <= 0 -> add_business_days d n = Some (Ok d).
Proof.
  intros Hn. unfold add_business_days. cbn [add_business_days_loop].
  destruct (Z.ltb_spec 0 n); [lia | reflexivity].
Qed.

(** With the [n]-th weekday after [d] at day [e], the call returns [e]
    when [e] is a date, and raises OverflowError when it is past
    [date.max]. *)
Lemma add_business_days_at (d : datetime) (n e : Z) :
  ordinal d <= MAXORDINAL -> 0 <= n ->
  nth_weekday_after (ordinal d) n e ->
  add_business_days d n
  = Some (if e <=? MAXORDINAL then Ok (mkdt e (time_us d))
          else Raise OverflowError).
Proof.
  intros Hd Hn [[-> ->]|(Hpos & Hlt & Hwd & Hc)].
  - rewrite add_business_days_zero by lia.
    destruct (Z.leb_spec (ordinal d) MAXORDINAL); [|lia].
    destruct d; reflexivity.
  - unfold add_business_days.
    destruct (Z.leb_spec e MAXORDINAL) as [Hin|Hout].
    + destruct (Z.to_nat (e - ordinal d)) as [|k] eqn:Hk; [lia|].
      replace e with (ordinal d + Z.of_nat (S k)) by lia.
      apply add_business_days_loop_reaches.
      * lia.
      * lia.
      * replace (ordinal d + Z.of_nat (S k)) with e by lia. exact Hwd.
      * rewrite Hc. lia.
    + apply (add_business_days_loop_overflows
               (Z.to_nat (MAXORDINAL - ordinal d))).
      * lia.
      * lia.
      * destruct (Z.to_nat (e - ordinal d)) as [|k] eqn:Hk; [lia|].
        rewrite count_weekdays_snoc in Hc.
        replace (ordinal d + Z.of_nat (S k)) with e in Hc by lia.
        destruct (Z.ltb_spec (weekday_of e) 5); [|lia].
        pose proof (count_weekdays_mono (ordinal d)
                      (Z.to_nat (MAXORDINAL - ordinal d)) k ltac:(lia)).
        lia.
Qed.

(** C7, as stated, fails: the first weekday after 9999-12-31, a Friday
    and the last [datetime] day, is no [datetime]; the call raises
    OverflowError instead of returning it. *)
Lemma add_business_days_last_day :
  valid (mkdt MAXORDINAL 0) /\
  add_business_days (mkdt MAXORDINAL 0) 1 = Some (Raise OverflowError) /\
  ~ (forall (d : datetime) (n : Z), valid d -> 0 <= n ->
       exists r, add_business_days d n = Some (Ok r) /\
                 nth_weekday_after (ordinal d) n (ordinal r)).
Proof.
  assert (Hv : valid (mkdt MAXORDINAL 0))
    by (unfold valid, MAXORDINAL; cbn; lia).
  assert (Hr : add_business_days (mkdt MAXORDINAL 0) 1
               = Some (Raise OverflowError)) by reflexivity.
  split; [exact Hv|]. split; [exact Hr|].
  intros Hclaim.
  destruct (Hclaim (mkdt MAXORDINAL 0) 1 Hv ltac:(lia)) as (r & Heq & _).
  rewrite Hr in Heq. discriminate Heq.
Qed.

(** C7 (amended): [add_business_days d 0] is [d] unchanged; for every
    [n >= 0] there is an [n]-th weekday strictly after [d], counting only
    Monday to Friday, and the call returns it, at the time of day of [d],
    when it is not past [date.max] (9999-12-31), and raises OverflowError
    when it is. *)
Theorem add_business_days_spec (d : datetime) (n : Z) :
  ordinal d <= MAXORDINAL -> 0 <= n ->
  add_business_days d 0 = Some (Ok d) /\
  exists e : Z,
    nth_weekday_after (ordinal d) n e /\
    add_business_days d n
    = Some (if e <=? MAXORDINAL then Ok (mkdt e (time_us d))
            else Raise OverflowError).
Proof.
  intros Hd Hn. split; [apply add_business_days_zero; lia|].
  destruct (nth_weekday_after_exists (ordinal d) n Hn) as [e He].
  exists e. split; [exact He|]. apply add_business_days_at; assumption.
Qed.

Lemma add_business_days_spec_witness :
  (738891 <= MAXORDINAL /\ 0 <= 10) /\
  add_business_days (mkdt 738891 43200000000) 0
  = Some (Ok (mkdt 738891 43200000000)) /\
  exists e : Z,
    nth_weekday_after 738891 10 e /\
    add_business_days (mkdt 738891 43200000000) 10
    = Some (if e <=? MAXORDINAL then Ok (mkdt e 43200000000)
            else Raise OverflowError).
Proof.
  split; [unfold MAXORDINAL; lia|].
  apply (add_business_days_spec (mkdt 738891 43200000000) 10);
    unfold MAXORDINAL; cbn; lia.
Defined.

(** The [n]-th weekday after a day is unique. *)
Lemma nth_weekday_after_unique (d n e1 e2 : Z) :
  nth_weekday_after d n e1 -> nth_weekday_after d n e2 -> e1 = e2.
Proof.
  assert (Hlt : forall a b na, nth_weekday_after d na a ->
                  nth_weekday_after d na b -> a < b -> False).
  { intros a b na [[-> ->]|(Hpa & Hda & Hwa & Hca)]
            [[Hz ->]|(Hpb & Hdb & Hwb & Hcb)] Hab; try lia.
    destruct (Z.to_nat (b - d)) as [|k] eqn:Hk; [lia|].
    rewrite count_weekdays_snoc in Hcb.
    replace (d + Z.of_nat (S k)) with b in Hcb by lia.
    destruct (Z.ltb_spec (weekday_of b) 5); [|lia].
    pose proof (count_weekdays_mono d (Z.to_nat (a - d)) k ltac:(lia)).
    lia. }
  intros H1 H2.
  destruct (Z.lt_trichotomy e1 e2) as [H|[H|H]]; [|exact H|].
  - destruct (Hlt e1 e2 n H1 H2 H).
  - destruct (Hlt e2 e1 n H2 H1 H).
Qed.

(** The call always returns or raises: the loop does not run on. *)
Lemma add_business_days_returns (d : datetime) (n : Z) :
  exists r, add_business_days d n = Some r.
Proof.
  unfold add_business_days. apply add_business_days_loop_fuel. lia.
Qed.

(** C10: for a negative [business_days] the loop body is not entered,
    whatever the fuel, and [add_business_days] returns the start date
    unchanged. *)
Theorem add_business_days_negative (d : datetime) (n : Z) :
  n < 0 ->
  (forall fuel, add_business_days_loop fuel d 0 n = Some (Ok d)) /\
  add_business_days d n = Some (Ok d).
Proof.
  intros Hn. split.
  - intros fuel.
    destruct fuel; cbn [add_business_days_loop];
      (destruct (Z.ltb_spec 0 n); [lia | reflexivity]).
  - apply add_business_days_zero. lia.
Qed.

Lemma add_business_days_negative_witness :
  -3 < 0 /\
  (forall fuel,
     add_business_days_loop fuel (mkdt 738891 43200000000) 0 (-3)
     = Some (Ok (mkdt 738891 43200000000))) /\
  add_business_days (mkdt 738891 43200000000) (-3)
  = Some (Ok (mkdt 738891 43200000000)).
Proof.
  split; [lia|].
  apply (add_business_days_negative (mkdt 738891 43200000000) (-3)). lia.
Defined.

End BusinessDays.

(** ** The date-range aggregator *)

Section AggregatorFacts.

Variable get_dividend_day : datetime -> DataFrame.

Definition all_weekend (start_date end_date : datetime) : Prop :=
  forall o, ordinal start_date <= o <= ordinal end_date -> 5 <= weekday_of o.

Lemma dt_leb_ordinal (a b : datetime) :
  dt_leb a b = true -> ordinal a <= ordinal b.
Proof.
  unfold dt_leb. intros H.
  apply orb_true_iff in H as [H|H].
  - apply Z.ltb_lt in H. lia.
  - apply andb_true_iff in H as [H _]. apply Z.eqb_eq in H. lia.
Qed.

(** The loop always comes to an end within its fuel. *)
Lemma get_dividend_days_loop_fuel (fuel : nat) :
  forall (start_date end_date : datetime) dfs fetched,
    (Z.to_nat (ordinal end_date - ordinal start_date + 1) <= fuel)%nat ->
    exists r,
      get_dividend_days_loop get_dividend_day fuel start_date end_date
        dfs fetched = Some r.
Proof.
  induction fuel as [|fuel IH]; intros start_date end_date dfs fetched Hfuel;
    cbn [get_dividend_days_loop];
    destruct (dt_leb start_date end_date) eqn:Hle; eauto.
  - apply dt_leb_ordinal in Hle. lia.
  - apply dt_leb_ordinal in Hle.
    destruct (weekday start_date <? 5);
      (unfold add_one_day;
       destruct (Z.leb_spec (ordinal start_date + 1) MAXORDINAL); [|eauto];
       apply IH; cbn [ordinal]; lia).
Qed.

Lemma get_dividend_days_returns (start_date end_date : datetime) :
  exists r, get_dividend_days get_dividend_day start_date end_date = Some r.
Proof.
  unfold get_dividend_days.
  destruct (get_dividend_days_loop_fuel
              (Z.to_nat (ordinal end_date - ordinal start_date + 1))
              start_date end_date [] [] ltac:(lia)) as [[fetched [dfs|e]] ->];
    eauto.
Qed.

(** Over a range of weekend days the loop fetches nothing. *)
Lemma get_dividend_days_loop_weekend (fuel : nat) :
  forall (start_date end_date : datetime),
    (Z.to_nat (ordinal end_date - ordinal start_date + 1) <= fuel)%nat ->
    ordinal end_date <= MAXORDINAL ->
    all_weekend start_date end_date ->
    get_dividend_days_loop get_dividend_day fuel start_date end_date [] []
    = Some ([], Ok []).
Proof.
  induction fuel as [|fuel IH]; intros start_date end_date Hfuel Hmax Hwe;
    cbn [get_dividend_days_loop];
    destruct (dt_leb start_date end_date) eqn:Hle; try reflexivity.
  - apply dt_leb_ordinal in Hle. lia.
  - apply dt_leb_ordinal in Hle.
    pose proof (Hwe (ordinal start_date) ltac:(lia)) as Hstart.
    unfold weekday.
    destruct (Z.ltb_spec (weekday_of (ordinal start_date)) 5); [lia|].
    assert (Hfri : weekday_of MAXORDINAL = 4) by reflexivity.
    assert (ordinal start_date <> MAXORDINAL) by (intros Heq; rewrite Heq in Hstart; lia).
    rewrite add_one_day_ok by lia.
    apply IH; cbn [ordinal]; [lia | lia |].
    intros o Ho. apply Hwe. cbn [ordinal] in Ho. lia.
Qed.

(** C1 (amended): over a date range in which every day is a weekend,
    [get_dividend_days] calls [get_dividend_day] zero times and then
    raises the ValueError of [pd.concat] on an empty list. *)
Theorem get_dividend_days_all_weekend (start_date end_date : datetime) :
  ordinal end_date <= MAXORDINAL ->
  all_weekend start_date end_date ->
  get_dividend_days get_dividend_day start_date end_date
  = Some ([], Raise ValueError).
Proof.
  intros Hmax Hwe. unfold get_dividend_days.
  rewrite get_dividend_days_loop_weekend by (try assumption; lia).
  reflexivity.
Qed.

End AggregatorFacts.

(** C1, as stated, fails: over the single Saturday 2024-01-06 nothing is
    fetched, and [pd.concat] of the empty list raises ValueError; no
    table is returned. *)
Lemma get_dividend_days_saturday :
  valid (mkdt 738891 0) /\
  all_weekend (mkdt 738891 0) (mkdt 738891 0) /\
  (forall fetch,
     get_dividend_days fetch (mkdt 738891 0) (mkdt 738891 0)
     = Some ([], Raise ValueError)) /\
  ~ (forall fetch (start_date end_date : datetime),
       valid start_date -> valid end_date ->
       all_weekend start_date end_date ->
       exists t, get_dividend_days fetch start_date end_date
                 = Some ([], Ok t) /\ df_rows t = []).
Proof.
  assert (Hv : valid (mkdt 738891 0)) by (unfold valid, MAXORDINAL; cbn; lia).
  assert (Hwe : all_weekend (mkdt 738891 0) (mkdt 738891 0)).
  { intros o Ho. cbn [ordinal] in Ho. replace o with 738891 by lia.
    change (weekday_of 738891) with 5. lia. }
  assert (Hr : forall fetch,
             get_dividend_days fetch (mkdt 738891 0) (mkdt 738891 0)
             = Some ([], Raise ValueError)) by reflexivity.
  split; [exact Hv|]. split; [exact Hwe|]. split; [exact Hr|].
  intros Hclaim.
  destruct (Hclaim (fun _ => empty_frame) _ _ Hv Hv Hwe) as (t & Heq & _).
  rewrite Hr in Heq. discriminate Heq.
Qed.

Lemma get_dividend_days_all_weekend_witness :
  (738892 <= MAXORDINAL /\ all_weekend (mkdt 738891 0) (mkdt 738892 0)) /\
  get_dividend_days (fun _ => empty_frame) (mkdt 738891 0) (mkdt 738892 0)
  = Some ([], Raise ValueError).
Proof.
  assert (Hwe : all_weekend (mkdt 738891 0) (mkdt 738892 0)).
  { intros o Ho. cbn [ordinal] in Ho.
    assert (Hcases : o = 738891 \/ o = 738892) by lia.
    destruct Hcases as [-> | ->];
      [change (weekday_of 738891) with 5 | change (weekday_of 738892) with 6];
      lia. }
  split; [split; [unfold MAXORDINAL; lia | exact Hwe]|].
  apply (get_dividend_days_all_weekend (fun _ => empty_frame)
           (mkdt 738891 0) (mkdt 738892 0)); [unfold MAXORDINAL; cbn; lia | exact Hwe].
Defined.
